(** * Azure-Repos demo code: a shallow embedding and its checked properties

    The repository holds two small Python programs:
    - [examples/simple-project/src]: [utils.py] (message formatting, a
      dictionary validation helper, a defaulting lookup) and [config.py]
      (settings read from the process environment);
    - [src/app.py]: [AzureDevOpsApp], which loads a JSON file, and builds a
      status record and a processing record; [run] and [main] print them.

    Python values are embedded as the inductive [PyVal]; dictionaries with
    string keys are stdpp finite maps; exceptions are an error monad over a
    world made of the file system, the clock and the log. *)

From Stdlib Require Import ZArith String Ascii.
From stdpp Require Import gmap strings list fin_maps.

Set Warnings "-register-all".
Local Open Scope string_scope.

(** ** Python values, truthiness, exceptions *)

Module Py.

(** The values that can sit in a configuration dictionary or come out of
    [json.load]: [None], booleans, integers, strings, lists and
    dictionaries keyed by strings. *)
Inductive PyVal : Type :=
  | VNone
  | VBool (b : bool)
  | VInt (z : Z)
  | VStr (s : string)
  | VList (l : list PyVal)
  | VDict (d : gmap string PyVal).

(** [bool(s)] for a string: only the empty string is falsy. *)
Definition str_truthy (s : string) : bool :=
  match s with
  | EmptyString => false
  | String _ _ => true
  end.

(** [key in d]. *)
Definition dict_contains (key : string) (d : gmap string PyVal) : bool :=
  match d !! key with
  | Some _ => true
  | None => false
  end.

(** [d.get(key, default)]: the stored value when the key is bound, whatever
    that value is, and [dflt] otherwise. *)
Definition dict_get (d : gmap string PyVal) (key : string) (dflt : PyVal) : PyVal :=
  match d !! key with
  | Some v => v
  | None => dflt
  end.

(** [c.lower()] on one character: the letters [A]..[Z] (codes 65..90) move
    to [a]..[z]; every other byte is kept. *)
Definition ascii_lower (c : ascii) : ascii :=
  let n := nat_of_ascii c in
  if (65 <=? n)%nat && (n <=? 90)%nat then ascii_of_nat (n + 32) else c.

(** [s.lower()]. Strings are byte strings here; bytes above 127 are kept as
    they are. *)
Fixpoint str_lower (s : string) : string :=
  match s with
  | EmptyString => EmptyString
  | String c rest => String (ascii_lower c) (str_lower rest)
  end.

(** The exception classes that the modelled calls can raise. [OSError] and
    [ValueError] stand for an exception of just that class, none of its
    subclasses: the other file errors are subclasses of [OSError], and the
    decoding errors are subclasses of [ValueError]; an [except] clause that
    names a subclass does not take them. *)
Inductive exn : Type :=
  | FileNotFoundError
  | IsADirectoryError
  | PermissionError
  | NotADirectoryError
  | OSError
  | ValueError
  | UnicodeDecodeError
  | JSONDecodeError
  | AttributeError.

End Py.

(** ** examples/simple-project/src/utils.py *)

Module utils.
Import Py.

(** [format_message(message, prefix=None)]: the f-string
    ["{prefix} {message}"] when [prefix] is truthy, else [message]; the
    prefix [None] is falsy, and so is the empty string. *)
Definition format_message (message : string) (prefix : option string) : string :=
  match prefix with
  | Some p => if str_truthy p then p ++ " " ++ message else message
  | None => message
  end.

Definition required_keys : list string := ["version"; "environment"].

(** The [for key in required_keys] loop of [validate_config]: leave with
    [False] at the first key that is not in the dictionary, and with [True]
    when the keys are exhausted. *)
Fixpoint validate_loop (keys : list string) (config_dict : gmap string PyVal) : bool :=
  match keys with
  | [] => true
  | key :: rest =>
      if negb (dict_contains key config_dict) then false
      else validate_loop rest config_dict
  end.

Definition validate_config (config_dict : gmap string PyVal) : bool :=
  validate_loop required_keys config_dict.

(** [safe_get(dictionary, key, default=None)]. *)
Definition safe_get (dictionary : gmap string PyVal) (key : string)
    (dflt : PyVal) : PyVal :=
  dict_get dictionary key dflt.

End utils.

(** ** examples/simple-project/src/config.py *)

Module config.
Import Py.

(** The attributes that [Config.__init__] sets on [self]. *)
Record Config : Type := {
  version : string;
  environment : string;
  debug : bool;
  message_prefix : string
}.

(** [os.getenv(name, default)] over the process environment [env]. *)
Definition getenv (env : gmap string string) (name dflt : string) : string :=
  match env !! name with
  | Some v => v
  | None => dflt
  end.

(** [Config.__init__], run in the process environment [env]. *)
Definition __init__ (env : gmap string string) : Config :=
  {| version := "1.0.0";
     environment := getenv env "ENVIRONMENT" "development";
     debug := String.eqb (str_lower (getenv env "DEBUG" "true")) "true";
     message_prefix := getenv env "MESSAGE_PREFIX" "[DEMO]" |}.

(** [Config.to_dict]. *)
Definition to_dict (self : Config) : gmap string PyVal :=
  <["version" := VStr (version self)]>
    (<["environment" := VStr (environment self)]>
      (<["debug" := VBool (debug self)]>
        (<["message_prefix" := VStr (message_prefix self)]> ∅))).

(** [str(b)] for a boolean, as the f-string of [__str__] renders it. *)
Definition str_of_bool (b : bool) : string := if b then "True" else "False".

(** [Config.__str__]. *)
Definition __str__ (self : Config) : string :=
  "Config(version=" ++ version self ++ ", env=" ++ environment self
    ++ ", debug=" ++ str_of_bool (debug self) ++ ")".

(** *** Comparison without regard to case, as the specification words it *)

Definition is_upper (n : nat) : bool := (65 <=? n)%nat && (n <=? 90)%nat.

(** Two characters are the same up to case when they are equal, or when one
    is a capital letter and the other its small form. *)
Definition same_letter (a b : ascii) : bool :=
  let x := nat_of_ascii a in
  let y := nat_of_ascii b in
  (x =? y)%nat
  || (is_upper x && (y =? x + 32)%nat)
  || (is_upper y && (x =? y + 32)%nat).

Fixpoint caseless_eqb (s t : string) : bool :=
  match s, t with
  | EmptyString, EmptyString => true
  | String a s', String b t' => same_letter a b && caseless_eqb s' t'
  | _, _ => false
  end.

End config.

(** ** src/app.py *)

Module app.
Import Py.

(** *** The world the application runs in *)

(** What a path of the file system names: a directory, or a regular file
    with its read permission and its text. A path that is not bound names
    nothing. *)
Inductive node : Type :=
  | Dir
  | File (readable : bool) (content : string).

Inductive level : Type := INFO | WARNING | ERROR.

(** The records handed to [logger], with the values their f-strings
    interpolate. *)
Inductive log_msg : Type :=
  | ConfigLoaded
  | ConfigNotFound (config_path : string)
  | InvalidJSON
  | Initialized (version : PyVal)
  | ProcessingData.

Record World : Type := {
  fs : gmap string node;
  clock : nat → string;
  ticks : nat;
  log : list (level * log_msg)
}.

(** *** Computations that read the world, log, and may raise *)

Inductive outcome (A : Type) : Type :=
  | Return (a : A)
  | Raise (e : exn).
Arguments Return {A} a.
Arguments Raise {A} e.

Definition M (A : Type) : Type := World → outcome A * World.

Definition ret {A} (a : A) : M A := λ w, (Return a, w).

Definition raise {A} (e : exn) : M A := λ w, (Raise e, w).

Definition bind {A B} (m : M A) (k : A → M B) : M B :=
  λ w, match m w with
       | (Return a, w') => k a w'
       | (Raise e, w') => (Raise e, w')
       end.

(** [try: body  except ...: handler]; a handler that does not take the
    exception raises it again. *)
Definition try_except {A} (body : M A) (handler : exn → M A) : M A :=
  λ w, match body w with
       | (Return a, w') => (Return a, w')
       | (Raise e, w') => handler e w'
       end.

Notation "'let*' x := m 'in' k" := (bind m (λ x, k))
  (at level 10, x name, m at level 100, k at level 200).
Notation "'exec' m 'in' k" := (bind m (λ _, k))
  (at level 10, m at level 100, k at level 200).

(** The world after one more record has been logged. *)
Definition add_log (lvl : level) (msg : log_msg) (w : World) : World :=
  {| fs := fs w; clock := clock w; ticks := ticks w;
     log := log w ++ [(lvl, msg)] |}.

(** [logger.info], [logger.warning], [logger.error]. *)
Definition logger (lvl : level) (msg : log_msg) : M unit :=
  λ w, (Return tt, add_log lvl msg w).

(** [datetime.now().isoformat()]: the clock is read, and has moved on at
    the next reading. *)
Definition now_isoformat : M string :=
  λ w, (Return (clock w (ticks w)),
        {| fs := fs w; clock := clock w; ticks := S (ticks w);
           log := log w |}).

(** Whether the string holds the character of code 0. *)
Fixpoint has_nul (s : string) : bool :=
  match s with
  | EmptyString => false
  | String c rest => (nat_of_ascii c =? 0)%nat || has_nul rest
  end.

(** The components of a path: the strings between its slashes, [cur] being
    the part of the current component that has been read. *)
Fixpoint split_slash (cur : string) (s : string) : list string :=
  match s with
  | EmptyString => [cur]
  | String c rest =>
      if Ascii.eqb c "/" then cur :: split_slash "" rest
      else split_slash (cur ++ String c "") rest
  end.

(** The limits of the operating system on the length of a component and
    of a path (Linux). *)
Definition NAME_MAX : nat := 255.
Definition PATH_MAX : nat := 4096.

(** Whether some bound path starts with [pre]: the directory that [pre]
    spells with its slash is there, though not bound itself. *)
Definition has_under (files : gmap string node) (pre : string) : bool :=
  existsb (String.prefix pre) (map_to_list files).*1.

(** The walk along the components of a path at which nothing is bound,
    [read] being the path so far with its slash. A component that is too
    long ends it with [OSError]. A component before the last one that names
    a regular file ends it with [NotADirectoryError], and one that names
    nothing, and has nothing under it, with [FileNotFoundError]. At the end
    of the path there is no such file. *)
Fixpoint missing_error (files : gmap string node) (read : string)
    (components : list string) : exn :=
  match components with
  | [] => FileNotFoundError
  | c :: rest =>
      if (NAME_MAX <? String.length c)%nat then OSError
      else match rest with
           | [] => FileNotFoundError
           | _ :: _ =>
               match files !! (read ++ c) with
               | Some (File _ _) => NotADirectoryError
               | Some Dir => missing_error files (read ++ c ++ "/") rest
               | None =>
                   if has_under files (read ++ c ++ "/")
                   then missing_error files (read ++ c ++ "/") rest
                   else FileNotFoundError
               end
           end
  end.

(** What [open] raises at a path at which nothing is bound: [ValueError]
    for a path with the character of code 0, which [open] refuses before it
    asks the operating system, [OSError] for a path that is too long, and
    else what the walk along its components ends with. *)
Definition open_error (files : gmap string node) (path : string) : exn :=
  if has_nul path then ValueError
  else if (PATH_MAX <=? String.length path)%nat then OSError
  else missing_error files "" (split_slash "" path).

(** [open(path, 'r')] followed by reading the whole file. The file system
    binds path strings as the program spells them, each to what it names;
    two spellings of one file are two strings, and no spelling is brought
    to another. A string that is not bound names nothing, and [open] fails
    on it as [open_error] says. *)
Definition open_read (path : string) : M string :=
  λ w, match fs w !! path with
       | None => (Raise (open_error (fs w) path), w)
       | Some Dir => (Raise IsADirectoryError, w)
       | Some (File false _) => (Raise PermissionError, w)
       | Some (File true content) => (Return content, w)
       end.

(** [obj.get(key, default)]: only a dictionary has the method. *)
Definition method_get (obj : PyVal) (key : string) (dflt : PyVal) : M PyVal :=
  match obj with
  | VDict d => ret (dict_get d key dflt)
  | _ => raise AttributeError
  end.

(** *** AzureDevOpsApp *)

Record AzureDevOpsApp : Type := {
  config : PyVal;
  version : PyVal
}.

(** The record returned when the file is not found. *)
Definition default_config : gmap string PyVal :=
  <["version" := VStr "1.0.0"]>
    (<["environment" := VStr "development"]>
      (<["debug" := VBool true]> ∅)).

Section with_decoder.

(** The decoder of the [json] library, on the text of a file: the decoded
    value, or the exception it raises ([JSONDecodeError] on text that is not
    valid JSON). *)
Variable json_loads : string → outcome PyVal.

Definition json_load (text : string) : M PyVal := λ w, (json_loads text, w).

(** [AzureDevOpsApp._load_config]. *)
Definition _load_config (config_path : string) : M PyVal :=
  try_except
    (let* text := open_read config_path in
     let* config := json_load text in
     exec logger INFO ConfigLoaded in
     ret config)
    (λ e, match e with
          | FileNotFoundError =>
              exec logger WARNING (ConfigNotFound config_path) in
              ret (VDict default_config)
          | JSONDecodeError =>
              exec logger ERROR InvalidJSON in
              ret (VDict ∅)
          | _ => raise e
          end).

(** [AzureDevOpsApp.__init__]. *)
Definition __init__ (config_path : string) : M AzureDevOpsApp :=
  let* config := _load_config config_path in
  let* version := method_get config "version" (VStr "1.0.0") in
  exec logger INFO (Initialized version) in
  ret {| config := config; version := version |}.

End with_decoder.

(** [AzureDevOpsApp.get_status]; the entries of the dictionary display are
    evaluated in the order they are written. *)
Definition get_status (self : AzureDevOpsApp) : M PyVal :=
  let* timestamp := now_isoformat in
  let* environment := method_get (config self) "environment" (VStr "unknown") in
  ret (VDict (<["status" := VStr "healthy"]>
               (<["version" := version self]>
                 (<["timestamp" := VStr timestamp]>
                   (<["environment" := environment]> ∅))))).

(** [AzureDevOpsApp.process_data]. *)
Definition process_data (self : AzureDevOpsApp) (data : PyVal) : M PyVal :=
  exec logger INFO ProcessingData in
  let* processed_at := now_isoformat in
  ret (VDict (<["original_data" := data]>
               (<["processed_at" := VStr processed_at]>
                 (<["status" := VStr "processed"]>
                   (<["version" := version self]> ∅))))).

(** A decoder given by a finite table of texts and their values; any other
    text is rejected. It stands for the library on the files of an example. *)
Definition table_loads (table : list (string * PyVal)) (text : string)
    : outcome PyVal :=
  match list_find (λ entry, entry.1 = text) table with
  | Some (_, (_, v)) => Return v
  | None => Raise JSONDecodeError
  end.

End app.

(** ** Processes: a world, the process environment and what was printed *)

Module proc.
Import Py app.

(** The records that [run] and [main] of [app.py] hand to [logger]. *)
Inductive run_msg : Type :=
  | Starting
  | ApplicationError (e : exn).

(** What a program emits at its top level, in the order it does:
    the argument of a [print] call, or a record logged by [run] or [main].
    The records of the [AzureDevOpsApp] methods are on the world's log. *)
Inductive event : Type :=
  | Printed (text : string)
  | Logged (lvl : level) (msg : run_msg).

Record Process : Type := {
  world : World;
  environ : gmap string string;
  trace : list event
}.

Definition P (A : Type) : Type := Process → outcome A * Process.

Definition pret {A} (a : A) : P A := λ p, (Return a, p).

Definition pbind {A B} (m : P A) (k : A → P B) : P B :=
  λ p, match m p with
       | (Return a, p') => k a p'
       | (Raise e, p') => (Raise e, p')
       end.

(** [try: body  except Exception as e: handler]: every exception class of
    the model derives from [Exception]. *)
Definition try_except_Exception {A} (body : P A) (handler : exn → P A) : P A :=
  λ p, match body p with
       | (Return a, p') => (Return a, p')
       | (Raise e, p') => handler e p'
       end.

Notation "'let+' x := m 'in' k" := (pbind m (λ x, k))
  (at level 10, x name, m at level 100, k at level 200).
Notation "'do+' m 'in' k" := (pbind m (λ _, k))
  (at level 10, m at level 100, k at level 200).

(** A computation on the world, run inside the process. *)
Definition lift {A} (m : M A) : P A :=
  λ p, match m (world p) with
       | (r, w') =>
           (r, {| world := w'; environ := environ p; trace := trace p |})
       end.

Definition emit (ev : event) : P unit :=
  λ p, (Return tt,
        {| world := world p; environ := environ p;
           trace := trace p ++ [ev] |}).

(** [print(text)]: the text is handed to the standard output, and the trace
    keeps it. The standard output is taken to encode the text, as it does
    every ASCII text; on a text that it cannot encode the [print] of Python
    raises [UnicodeEncodeError], which is not modelled. *)
Definition print (text : string) : P unit := emit (Printed text).

(** The printed texts of a trace, in order. *)
Fixpoint printed (tr : list event) : list string :=
  match tr with
  | [] => []
  | Printed text :: rest => text :: printed rest
  | Logged _ _ :: rest => printed rest
  end.

(** The newline character of the f-strings that start with [\n]. *)
Definition nl : string := String "010"%char "".

End proc.

(** ** examples/simple-project/src: get_timestamp of utils.py, and main.py *)

Module main_py.
Import Py app proc.

(** [get_timestamp()] of [utils.py]. *)
Definition get_timestamp : M string := now_isoformat.

Definition message : string := "Hello from Azure DevOps Git Demo!".

(** The [if config.debug:] block of [main]. *)
Definition debug_info : P unit :=
  do+ print (nl ++ "Debug info:") in
  do+ print "- Config loaded: ✓" in
  do+ print "- Utils imported: ✓" in
  print "- Application running: ✓".

(** [main()] of [main.py]; [Config()] reads the environment of the
    process. *)
Definition main : P Z :=
  λ p,
    (let config := config.__init__ (environ p) in
     do+ print "=== Simple Project Demo ===" in
     do+ print ("Version: " ++ config.version config) in
     do+ print ("Environment: " ++ config.environment config) in
     let+ started := lift get_timestamp in
     do+ print ("Started at: " ++ started) in
     let formatted_message :=
       utils.format_message message (Some (config.message_prefix config)) in
     do+ print (nl ++ formatted_message) in
     do+ (if config.debug config then debug_info else pret tt) in
     pret 0%Z) p.

End main_py.

(** ** src/app.py: run and main *)

Module app_run.
Import Py app proc.

Definition default_config_path : string := "src/config.json".

Section with_json.

(** The decoder and the encoder of the [json] library; the encoder is
    [json.dumps(value, indent=2)], which renders every value of [PyVal]. *)
Variable json_loads : string → outcome PyVal.
Variable json_dumps : PyVal → string.

(** [AzureDevOpsApp.run]. *)
Definition run (self : AzureDevOpsApp) : P unit :=
  do+ emit (Logged INFO Starting) in
  let+ timestamp := lift now_isoformat in
  let sample_data :=
    VDict (<["user_id" := VInt 12345]>
            (<["action" := VStr "login"]>
              (<["timestamp" := VStr timestamp]> ∅))) in
  let+ result := lift (process_data self sample_data) in
  do+ print (json_dumps result) in
  let+ status := lift (get_status self) in
  print (nl ++ "Application Status: " ++ json_dumps status).

(** [main()] of [app.py]: the [try] block either falls through, and [main]
    returns [0], or its handler returns [1]. *)
Definition main : P Z :=
  let+ returned :=
    try_except_Exception
      (let+ app := lift (app.__init__ json_loads default_config_path) in
       do+ run app in
       pret None)
      (λ e, do+ emit (Logged ERROR (ApplicationError e)) in
            pret (Some 1%Z)) in
  match returned with
  | Some code => pret code
  | None => pret 0%Z
  end.

End with_json.

End app_run.

(** * Properties *)

(** ** Dictionaries and strings *)

Module PyFacts.
Import Py.

Lemma dict_contains_true key (d : gmap string PyVal) :
  dict_contains key d = true ↔ is_Some (d !! key).
Proof.
  unfold dict_contains. destruct (d !! key) as [v|] eqn:E.
  - split; [eauto | done].
  - split; [done | intros [v Hv]; discriminate].
Qed.

Lemma dict_contains_false key (d : gmap string PyVal) :
  dict_contains key d = false ↔ d !! key = None.
Proof.
  unfold dict_contains. destruct (d !! key); split; done.
Qed.

Lemma dict_get_Some (d : gmap string PyVal) key dflt v :
  d !! key = Some v → dict_get d key dflt = v.
Proof. unfold dict_get. by intros ->. Qed.

Lemma dict_get_None (d : gmap string PyVal) key dflt :
  d !! key = None → dict_get d key dflt = dflt.
Proof. unfold dict_get. by intros ->. Qed.

(** The code of a character after [lower]. *)
Definition lower_code (n : nat) : nat :=
  if (65 <=? n)%nat && (n <=? 90)%nat then n + 32 else n.

Lemma nat_of_ascii_lower c :
  nat_of_ascii (ascii_lower c) = lower_code (nat_of_ascii c).
Proof.
  unfold ascii_lower, lower_code.
  destruct ((65 <=? nat_of_ascii c)%nat && (nat_of_ascii c <=? 90)%nat) eqn:E;
    [| reflexivity].
  apply andb_true_iff in E as [_ E]. apply Nat.leb_le in E.
  apply nat_ascii_embedding. lia.
Qed.

Lemma ascii_lower_inj_code a b :
  ascii_lower a = ascii_lower b
  ↔ lower_code (nat_of_ascii a) = lower_code (nat_of_ascii b).
Proof.
  rewrite <- !nat_of_ascii_lower. split; [by intros -> |].
  intros H. rewrite <- (ascii_nat_embedding (ascii_lower a)).
  rewrite <- (ascii_nat_embedding (ascii_lower b)). by rewrite H.
Qed.

End PyFacts.

(** ** utils.py *)

Module utils_props.
Import Py PyFacts utils.

(** The loop answers [True] exactly when every key of the list is bound. *)
Lemma validate_loop_spec keys (d : gmap string PyVal) :
  validate_loop keys d = true ↔ Forall (λ k, is_Some (d !! k)) keys.
Proof.
  induction keys as [|k keys IH]; simpl.
  - split; [constructor | done].
  - destruct (dict_contains k d) eqn:E; simpl.
    + rewrite IH. apply dict_contains_true in E.
      split; [by constructor | by inversion 1].
    + apply dict_contains_false in E.
      split; [done |]. inversion 1 as [|? ? [v Hv] _]. congruence.
Qed.

Lemma validate_config_iff (d : gmap string PyVal) :
  validate_config d = true
  ↔ is_Some (d !! "version") ∧ is_Some (d !! "environment").
Proof.
  unfold validate_config. rewrite validate_loop_spec.
  unfold required_keys. rewrite !Forall_cons, Forall_nil. tauto.
Qed.

(** C3: [format_message] returns the message unchanged for the prefix
    [None] and for the empty prefix, and returns [prefix ++ " " ++ message]
    for every non-empty prefix. *)
Theorem format_message_spec (message : string) :
  format_message message None = message
  ∧ format_message message (Some "") = message
  ∧ ∀ prefix : string, prefix ≠ "" →
      format_message message (Some prefix) = prefix ++ " " ++ message.
Proof.
  split; [reflexivity | split; [reflexivity |]].
  intros prefix Hne. unfold format_message.
  destruct prefix as [|c p]; [congruence | reflexivity].
Qed.

Lemma format_message_spec_witness :
  format_message "Hello World" None = "Hello World"
  ∧ format_message "Hello World" (Some "") = "Hello World"
  ∧ format_message "Hello World" (Some "[TEST]") = "[TEST] Hello World".
Proof.
  destruct (format_message_spec "Hello World") as (H1 & H2 & H3).
  split; [exact H1 | split; [exact H2 |]].
  apply (H3 "[TEST]"). discriminate.
Defined.

(** C4: [validate_config] is [True] exactly when both ["version"] and
    ["environment"] are bound, whatever the bound values and the other keys
    are; it is [False] on the empty dictionary and whenever one of the two
    keys is missing. *)
Theorem validate_config_spec :
  (∀ d : gmap string PyVal,
      validate_config d = true
      ↔ is_Some (d !! "version") ∧ is_Some (d !! "environment"))
  ∧ (∀ (d : gmap string PyVal) (v e : PyVal),
      validate_config (<["version" := v]> (<["environment" := e]> d)) = true)
  ∧ validate_config ∅ = false
  ∧ (∀ d : gmap string PyVal,
      d !! "version" = None ∨ d !! "environment" = None →
      validate_config d = false).
Proof.
  split; [exact validate_config_iff |]. split; [| split].
  - intros d v e. apply validate_config_iff. split.
    + rewrite lookup_insert_eq. eauto.
    + rewrite lookup_insert_ne by done. rewrite lookup_insert_eq. eauto.
  - reflexivity.
  - intros d Hmiss. apply not_true_is_false. rewrite validate_config_iff.
    intros [[v Hv] [e He]]. destruct Hmiss; congruence.
Qed.

Lemma validate_config_spec_witness :
  validate_config (<["environment" := VStr "test"]> (<["debug" := VBool true]> ∅))
  = false.
Proof.
  destruct validate_config_spec as (_ & _ & _ & Hmiss).
  apply Hmiss. left. reflexivity.
Defined.

(** C5: [safe_get] returns the value stored under the key when the key is
    bound, also when that value is [None], and the default when the key is
    not bound. *)
Theorem safe_get_spec (dictionary : gmap string PyVal) (key : string) (dflt : PyVal) :
  (∀ v, dictionary !! key = Some v → safe_get dictionary key dflt = v)
  ∧ (dictionary !! key = Some VNone → safe_get dictionary key dflt = VNone)
  ∧ (dictionary !! key = None → safe_get dictionary key dflt = dflt).
Proof.
  unfold safe_get. split; [| split].
  - intros v. apply dict_get_Some.
  - apply dict_get_Some.
  - apply dict_get_None.
Qed.

Lemma safe_get_spec_witness :
  safe_get (<["key1" := VNone]> ∅) "key1" (VStr "default") = VNone
  ∧ safe_get (<["key1" := VStr "value1"]> ∅) "key2" (VStr "default_value")
    = VStr "default_value".
Proof.
  split.
  - destruct (safe_get_spec (<["key1" := VNone]> ∅) "key1" (VStr "default"))
      as (_ & Hnone & _).
    apply Hnone. reflexivity.
  - destruct (safe_get_spec (<["key1" := VStr "value1"]> ∅) "key2"
                (VStr "default_value")) as (_ & _ & Habs).
    apply Habs. reflexivity.
Defined.

End utils_props.

(** ** config.py *)

Module config_props.
Import Py PyFacts utils config.

Lemma getenv_default (env : gmap string string) name dflt :
  getenv env name dflt = default dflt (env !! name).
Proof. unfold getenv. by destruct (env !! name). Qed.

(** Lowering two characters gives the same character exactly when they are
    the same letter up to case. *)
Lemma ascii_lower_same_letter a b :
  Ascii.eqb (ascii_lower a) (ascii_lower b) = same_letter a b.
Proof.
  apply eq_true_iff_eq. rewrite Ascii.eqb_eq, ascii_lower_inj_code.
  unfold same_letter, lower_code, is_upper.
  generalize (nat_of_ascii a) (nat_of_ascii b). intros x y.
  rewrite !orb_true_iff, !andb_true_iff, !Nat.eqb_eq, !Nat.leb_le.
  destruct (Nat.leb_spec 65 x), (Nat.leb_spec x 90),
    (Nat.leb_spec 65 y), (Nat.leb_spec y 90); simpl; lia.
Qed.

(** Comparing the lowered strings is comparing without regard to case. *)
Lemma str_lower_caseless s t :
  String.eqb (str_lower s) (str_lower t) = caseless_eqb s t.
Proof.
  revert t. induction s as [|a s IH]; intros [|b t]; simpl; try reflexivity.
  rewrite ascii_lower_same_letter, IH.
  by destruct (same_letter a b).
Qed.

Lemma debug_caseless_eqb (env : gmap string string) :
  debug (config.__init__ env)
  = caseless_eqb (default "true" (env !! "DEBUG")) "true".
Proof.
  simpl. rewrite getenv_default.
  apply (str_lower_caseless _ "true").
Qed.

Example caseless_TRUE : caseless_eqb "TRUE" "true" = true.
Proof. reflexivity. Qed.

Example caseless_True : caseless_eqb "True" "true" = true.
Proof. reflexivity. Qed.

Example caseless_yes : caseless_eqb "yes" "true" = false.
Proof. reflexivity. Qed.

Example caseless_longer : caseless_eqb "true " "true" = false.
Proof. reflexivity. Qed.

(** C2, as the claim has it: some environment variable, when it is set,
    gives the [version] field its value. No variable does: with the variable
    set to ["2.0.0"] the field is still ["1.0.0"]. *)
Lemma version_not_from_environment :
  ¬ ∃ var : string, ∀ (env : gmap string string) (v : string),
      env !! var = Some v → version (config.__init__ env) = v.
Proof.
  intros [var H].
  specialize (H {[ var := "2.0.0" ]} "2.0.0" (lookup_singleton_eq _ _)).
  discriminate H.
Qed.

(** C2, amended: the constructor reads the three variables [ENVIRONMENT],
    [DEBUG] and [MESSAGE_PREFIX], and puts the default ["development"],
    ["true"] (compared with ["true"] after lowering) or ["[DEMO]"] for each
    one that is not set; [version] is the constant ["1.0.0"] in every
    environment, and no other variable has any effect. *)
Theorem config_init_spec (env : gmap string string) :
  version (config.__init__ env) = "1.0.0"
  ∧ environment (config.__init__ env) = default "development" (env !! "ENVIRONMENT")
  ∧ debug (config.__init__ env)
    = String.eqb (str_lower (default "true" (env !! "DEBUG"))) "true"
  ∧ message_prefix (config.__init__ env) = default "[DEMO]" (env !! "MESSAGE_PREFIX")
  ∧ ∀ env' : gmap string string,
      env' !! "ENVIRONMENT" = env !! "ENVIRONMENT" →
      env' !! "DEBUG" = env !! "DEBUG" →
      env' !! "MESSAGE_PREFIX" = env !! "MESSAGE_PREFIX" →
      config.__init__ env' = config.__init__ env.
Proof.
  unfold config.__init__; simpl. rewrite !getenv_default.
  split; [done |]. split; [done |]. split; [done |]. split; [done |].
  intros env' He Hd Hm. rewrite !getenv_default, He, Hd, Hm. reflexivity.
Qed.

Lemma config_init_spec_witness :
  config.__init__ (<["VERSION" := "2.0.0"]> (<["DEBUG" := "False"]> ∅))
  = config.__init__ {[ "DEBUG" := "False" ]}.
Proof.
  destruct (config_init_spec {[ "DEBUG" := "False" ]}) as (_ & _ & _ & _ & H).
  apply H; reflexivity.
Defined.

(** C7: [debug] is [True] exactly when the value of [DEBUG], or ["true"]
    when the variable is not set, equals ["true"] without regard to case; it
    is [True] when [DEBUG] is not set, and [False] for ["false"] and ["1"]. *)
Theorem debug_spec (env : gmap string string) :
  (debug (config.__init__ env) = true
   ↔ caseless_eqb (default "true" (env !! "DEBUG")) "true" = true)
  ∧ (env !! "DEBUG" = None → debug (config.__init__ env) = true)
  ∧ (∀ v, env !! "DEBUG" = Some v →
       caseless_eqb v "true" = false → debug (config.__init__ env) = false)
  ∧ (env !! "DEBUG" = Some "false" → debug (config.__init__ env) = false)
  ∧ (env !! "DEBUG" = Some "1" → debug (config.__init__ env) = false).
Proof.
  rewrite debug_caseless_eqb.
  split; [done |]. split; [by intros -> |]. split; [by intros v -> |].
  split; by intros ->.
Qed.

Lemma debug_spec_witness :
  debug (config.__init__ ∅) = true
  ∧ debug (config.__init__ {[ "DEBUG" := "TRUE" ]}) = true
  ∧ debug (config.__init__ {[ "DEBUG" := "yes" ]}) = false
  ∧ debug (config.__init__ {[ "DEBUG" := "false" ]}) = false
  ∧ debug (config.__init__ {[ "DEBUG" := "1" ]}) = false.
Proof.
  split; [| split; [| split; [| split]]].
  - destruct (debug_spec ∅) as (_ & H & _). apply H. reflexivity.
  - destruct (debug_spec {[ "DEBUG" := "TRUE" ]}) as (H & _).
    apply H. reflexivity.
  - destruct (debug_spec {[ "DEBUG" := "yes" ]}) as (_ & _ & H & _).
    apply (H "yes"); reflexivity.
  - destruct (debug_spec {[ "DEBUG" := "false" ]}) as (_ & _ & _ & H & _).
    apply H. reflexivity.
  - destruct (debug_spec {[ "DEBUG" := "1" ]}) as (_ & _ & _ & _ & H).
    apply H. reflexivity.
Defined.

(** What [to_dict] binds, for any [Config] object. *)
Lemma to_dict_lookups (self : Config) :
  to_dict self !! "version" = Some (VStr (version self))
  ∧ to_dict self !! "environment" = Some (VStr (environment self))
  ∧ to_dict self !! "debug" = Some (VBool (debug self))
  ∧ to_dict self !! "message_prefix" = Some (VStr (message_prefix self)).
Proof. unfold to_dict. by simplify_map_eq. Qed.

(** C8: in every environment the dictionary of [to_dict] has exactly the
    four keys [version], [environment], [debug] and [message_prefix], each
    bound, and [debug] is bound to a boolean. *)
Theorem to_dict_fields (env : gmap string string) :
  dom (to_dict (config.__init__ env))
  = {[ "version"; "environment"; "debug"; "message_prefix" ]}
  ∧ ∃ (v e p : string) (b : bool),
      to_dict (config.__init__ env) !! "version" = Some (VStr v)
      ∧ to_dict (config.__init__ env) !! "environment" = Some (VStr e)
      ∧ to_dict (config.__init__ env) !! "debug" = Some (VBool b)
      ∧ to_dict (config.__init__ env) !! "message_prefix" = Some (VStr p).
Proof.
  split.
  - unfold to_dict. rewrite !dom_insert_L, dom_empty_L. set_solver.
  - exists (version (config.__init__ env)), (environment (config.__init__ env)),
      (message_prefix (config.__init__ env)), (debug (config.__init__ env)).
    apply to_dict_lookups.
Qed.

(** C9: in every environment the dictionary of [to_dict] passes
    [validate_config]. *)
Theorem to_dict_valid (env : gmap string string) :
  validate_config (to_dict (config.__init__ env)) = true.
Proof.
  apply utils_props.validate_config_iff.
  destruct (to_dict_lookups (config.__init__ env)) as (Hv & He & _).
  rewrite Hv, He. eauto.
Qed.

End config_props.

(** ** app.py *)

Module app_props.
Import Py PyFacts app.

(** *** Worlds and objects to run the model on *)

Definition example_clock (n : nat) : string :=
  match n with
  | O => "2024-05-01T09:30:00.000001"
  | S _ => "2024-05-01T09:30:00.000002"
  end.

(** A file system with a directory, a file that is not JSON, and a file that
    holds an object without the ["environment"] key. *)
Definition dq : string := String "034"%char "".

(** The text [{"version": "2.0.0"}]. *)
Definition v2_text : string :=
  "{" ++ dq ++ "version" ++ dq ++ ": " ++ dq ++ "2.0.0" ++ dq ++ "}".

Definition example_world : World :=
  {| fs := <["src" := Dir]>
             (<["bad.json" := File true "{version:"]>
               (<["v2.json" := File true v2_text]> ∅));
     clock := example_clock;
     ticks := 0;
     log := [] |}.

Definition example_loads : string → outcome PyVal :=
  table_loads [(v2_text, VDict {[ "version" := VStr "2.0.0" ]})].

Definition example_app : AzureDevOpsApp :=
  {| config := VDict ∅; version := VStr "1.0.0" |}.

Definition example_data : PyVal :=
  VDict (<["user_id" := VInt 12345]> {[ "action" := VStr "login" ]}).

(** *** Running the loader *)

(** What the [except] clauses of the loader do with an exception of the
    [try] block. *)
Definition on_raise (path : string) (e : exn) (w : World)
    : outcome PyVal * World :=
  match e with
  | FileNotFoundError =>
      (Return (VDict default_config), add_log WARNING (ConfigNotFound path) w)
  | JSONDecodeError => (Return (VDict ∅), add_log ERROR InvalidJSON w)
  | _ => (Raise e, w)
  end.

Lemma open_read_cases path w :
  (open_read path w).1
  = match fs w !! path with
    | None => Raise (open_error (fs w) path)
    | Some Dir => Raise IsADirectoryError
    | Some (File false _) => Raise PermissionError
    | Some (File true content) => Return content
    end.
Proof.
  unfold open_read. by destruct (fs w !! path) as [[|[] content]|].
Qed.

(** [open] leaves the world as it is. *)
Lemma open_read_world path w : open_read path w = ((open_read path w).1, w).
Proof.
  unfold open_read. by destruct (fs w !! path) as [[|[] content]|].
Qed.

(** [open] returns a text exactly at the readable files. *)
Lemma open_read_file path w content :
  (open_read path w).1 = Return content
  ↔ fs w !! path = Some (File true content).
Proof.
  rewrite open_read_cases.
  destruct (fs w !! path) as [[|[] c]|]; split; intros [=]; by subst.
Qed.

(** The loader, case by case on what [open] and the decoder do. *)
Lemma load_config_by_open jl path w :
  _load_config jl path w
  = match (open_read path w).1 with
    | Return content =>
        match jl content with
        | Return v => (Return v, add_log INFO ConfigLoaded w)
        | Raise e => on_raise path e w
        end
    | Raise e => on_raise path e w
    end.
Proof.
  unfold _load_config, try_except, bind. rewrite open_read_world.
  destruct (open_read path w).1 as [content|e]; simpl.
  - unfold json_load, logger, ret, raise.
    destruct (jl content) as [v|[]]; reflexivity.
  - unfold logger, ret, raise. destruct e; reflexivity.
Qed.

(** The loader, case by case on what the path names. *)
Lemma load_config_cases jl path w :
  _load_config jl path w
  = match fs w !! path with
    | None => on_raise path (open_error (fs w) path) w
    | Some Dir => (Raise IsADirectoryError, w)
    | Some (File false _) => (Raise PermissionError, w)
    | Some (File true content) =>
        match jl content with
        | Return v => (Return v, add_log INFO ConfigLoaded w)
        | Raise e => on_raise path e w
        end
    end.
Proof.
  rewrite load_config_by_open, open_read_cases.
  by destruct (fs w !! path) as [[|[] content]|].
Qed.

(** The exceptions that the [except] clauses let through are those of the
    other classes. *)
Lemma on_raise_raises path e w e' :
  (on_raise path e w).1 = Raise e'
  ↔ e' = e ∧ e ≠ FileNotFoundError ∧ e ≠ JSONDecodeError.
Proof.
  destruct e; simpl; split;
    try (intros [= <-]; by repeat split);
    try discriminate; by intros (-> & ? & ?).
Qed.

(** A string of [n] letters [a]. *)
Fixpoint letters (n : nat) : string :=
  match n with
  | O => ""
  | S n' => String "a" (letters n')
  end.

(** A path under a regular file, a path with the character of code 0 and a
    name of 256 letters name nothing, and [open] does not say that there is
    no such file. *)
Example open_under_file :
  (open_read "bad.json/x" example_world).1 = Raise NotADirectoryError.
Proof. reflexivity. Qed.

Example open_nul :
  (open_read (String "000" "x") example_world).1 = Raise ValueError.
Proof. reflexivity. Qed.

Example open_long_name :
  (open_read (letters 256) example_world).1 = Raise OSError.
Proof. reflexivity. Qed.

Example open_missing :
  (open_read "nowhere.json" example_world).1 = Raise FileNotFoundError.
Proof. reflexivity. Qed.

Example open_missing_directory :
  (open_read ("nowhere/" ++ letters 256) example_world).1
  = Raise FileNotFoundError.
Proof. reflexivity. Qed.

Example open_long_name_in_directory :
  (open_read ("src/" ++ letters 256) example_world).1 = Raise OSError.
Proof. reflexivity. Qed.

Example load_config_directory :
  _load_config example_loads "src" example_world
  = (Raise IsADirectoryError, example_world).
Proof. reflexivity. Qed.

(** C1, as the claim has it: the loader returns a value for every path. It
    does not when the path names a directory: [open] raises
    [IsADirectoryError], which neither [except] clause takes. *)
Lemma load_config_may_raise :
  ¬ ∀ (jl : string → outcome PyVal) (w : World) (path : string),
      ∃ v, (_load_config jl path w).1 = Return v.
Proof.
  intros H. destruct (H example_loads example_world "src") as [v Hv].
  discriminate Hv.
Qed.

(** C1, amended: the loader returns the record [{version: "1.0.0",
    environment: "development", debug: True}] when the file does not exist,
    that is when [open] raises [FileNotFoundError], and the empty dictionary
    when the file is read and the decoder rejects its text with
    [JSONDecodeError]; it raises in neither case. Every exception of another
    class that [open] or the decoder raises leaves the loader as it is, and
    no other exception leaves the loader. *)
Theorem load_config_spec (jl : string → outcome PyVal) (w : World) (path : string) :
  ((open_read path w).1 = Raise FileNotFoundError →
     (_load_config jl path w).1 = Return (VDict default_config))
  ∧ (default_config !! "version" = Some (VStr "1.0.0")
     ∧ default_config !! "environment" = Some (VStr "development")
     ∧ default_config !! "debug" = Some (VBool true)
     ∧ dom default_config = {[ "version"; "environment"; "debug" ]})
  ∧ (∀ content, (open_read path w).1 = Return content →
       jl content = Raise JSONDecodeError →
       (_load_config jl path w).1 = Return (VDict ∅))
  ∧ (∀ e, (_load_config jl path w).1 = Raise e
       ↔ e ≠ FileNotFoundError ∧ e ≠ JSONDecodeError
         ∧ ((open_read path w).1 = Raise e
            ∨ ∃ content, (open_read path w).1 = Return content
                         ∧ jl content = Raise e)).
Proof.
  rewrite load_config_by_open.
  split; [by intros -> |]. split.
  { split; [done |]. split; [done |]. split; [done |].
    unfold default_config. rewrite !dom_insert_L, dom_empty_L. set_solver. }
  split; [by intros content -> -> |].
  intros e. destruct (open_read path w).1 as [content|e0].
  - destruct (jl content) as [v|e1] eqn:Hjl.
    + split; [discriminate |].
      intros (_ & _ & [[=] | (c & [= <-] & Hc)]). congruence.
    + rewrite on_raise_raises. split.
      * intros (-> & Hf & Hj). eauto 6.
      * intros (Hf & Hj & [[=] | (c & [= <-] & Hc)]).
        rewrite Hjl in Hc. injection Hc as ->. done.
  - rewrite on_raise_raises. split.
    + intros (-> & Hf & Hj). eauto.
    + intros (Hf & Hj & [[= ->] | (c & [=] & _)]). done.
Qed.

Lemma load_config_spec_witness :
  (_load_config example_loads "nowhere.json" example_world).1
    = Return (VDict default_config)
  ∧ (_load_config example_loads "bad.json" example_world).1
    = Return (VDict ∅)
  ∧ (_load_config example_loads "bad.json/x" example_world).1
    = Raise NotADirectoryError
  ∧ (open_read "src" example_world).1 = Raise IsADirectoryError.
Proof.
  split; [| split; [| split]].
  - destruct (load_config_spec example_loads example_world "nowhere.json")
      as (H & _).
    apply H. reflexivity.
  - destruct (load_config_spec example_loads example_world "bad.json")
      as (_ & _ & H & _).
    apply (H "{version:"); reflexivity.
  - destruct (load_config_spec example_loads example_world "bad.json/x")
      as (_ & _ & _ & H).
    apply (proj2 (H NotADirectoryError)).
    split; [discriminate |]. split; [discriminate |]. left. reflexivity.
  - destruct (load_config_spec example_loads example_world "src")
      as (_ & _ & _ & H).
    destruct (proj1 (H IsADirectoryError) eq_refl)
      as (_ & _ & [Ho | (c & Ho & _)]); [exact Ho | discriminate Ho].
Defined.

(** *** The constructed application *)

(** An application that [__init__] returned holds a dictionary, and its
    [version] attribute is that dictionary's ["version"] or ["1.0.0"]. *)
Lemma init_inv jl path w self w1 :
  app.__init__ jl path w = (Return self, w1) →
  ∃ d, (_load_config jl path w).1 = Return (VDict d)
       ∧ config self = VDict d
       ∧ version self = dict_get d "version" (VStr "1.0.0").
Proof.
  unfold app.__init__, bind.
  destruct (_load_config jl path w) as [[v|e] w'] eqn:Hload; [| discriminate].
  destruct v; simpl; try discriminate.
  intros [= <- _]. eauto.
Qed.

(** [get_status] on an application that holds a dictionary. *)
Lemma get_status_dict (self : AzureDevOpsApp) d w :
  config self = VDict d →
  (get_status self w).1
  = Return (VDict (<["status" := VStr "healthy"]>
                    (<["version" := version self]>
                      (<["timestamp" := VStr (clock w (ticks w))]>
                        (<["environment" :=
                             dict_get d "environment" (VStr "unknown")]> ∅))))).
Proof.
  intros Hd. unfold get_status, bind, now_isoformat. simpl.
  rewrite Hd. reflexivity.
Qed.

Example init_bad_json :
  (app.__init__ example_loads "bad.json" example_world).1
  = Return example_app.
Proof. reflexivity. Qed.

Example init_list_config jl w :
  fs w !! "list.json" = Some (File true "[1, 2]") →
  jl "[1, 2]" = Return (VList [VInt 1; VInt 2]) →
  (app.__init__ jl "list.json" w).1 = Raise AttributeError.
Proof.
  intros Hfs Hjl. unfold app.__init__, bind.
  rewrite load_config_cases, Hfs, Hjl. reflexivity.
Qed.

(** C10: for an application that the constructor returned, [get_status]
    returns its four-field record in every world and does not raise. When
    the configuration has no ["environment"] key the record's environment is
    ["unknown"]; when it has no ["version"] key the version captured at
    construction is ["1.0.0"]; after a load of text that the decoder rejects
    the configuration is empty and the record is [{status: "healthy",
    version: "1.0.0", timestamp: <now>, environment: "unknown"}]. *)
Theorem get_status_spec (jl : string → outcome PyVal) (path : string)
    (w w1 : World) (self : AzureDevOpsApp) :
  app.__init__ jl path w = (Return self, w1) →
  ∃ d : gmap string PyVal,
    config self = VDict d
    ∧ (d !! "version" = None → version self = VStr "1.0.0")
    ∧ (∀ content, fs w !! path = Some (File true content) →
         jl content = Raise JSONDecodeError → d = ∅)
    ∧ ∀ w2 : World, ∃ st : gmap string PyVal,
        (get_status self w2).1 = Return (VDict st)
        ∧ dom st = {[ "status"; "version"; "timestamp"; "environment" ]}
        ∧ st !! "status" = Some (VStr "healthy")
        ∧ st !! "version" = Some (version self)
        ∧ st !! "timestamp" = Some (VStr (clock w2 (ticks w2)))
        ∧ st !! "environment" = Some (dict_get d "environment" (VStr "unknown"))
        ∧ (d !! "environment" = None →
             st !! "environment" = Some (VStr "unknown"))
        ∧ (d = ∅ →
             st = <["status" := VStr "healthy"]>
                    (<["version" := VStr "1.0.0"]>
                      (<["timestamp" := VStr (clock w2 (ticks w2))]>
                        (<["environment" := VStr "unknown"]> ∅)))).
Proof.
  intros Hinit. destruct (init_inv _ _ _ _ _ Hinit) as (d & Hload & Hcfg & Hver).
  exists d. split; [exact Hcfg |]. split; [| split].
  - intros Hnone. by rewrite Hver, (dict_get_None _ _ _ Hnone).
  - intros content Hfs Hjl. rewrite load_config_cases, Hfs, Hjl in Hload.
    by injection Hload.
  - intros w2. eexists. split; [by apply get_status_dict |].
    split; [rewrite !dom_insert_L, dom_empty_L; set_solver |].
    split; [by simplify_map_eq |]. split; [by simplify_map_eq |].
    split; [by simplify_map_eq |]. split; [by simplify_map_eq |].
    split.
    + intros Hnone. rewrite (dict_get_None _ _ _ Hnone). by simplify_map_eq.
    + intros ->. rewrite Hver. reflexivity.
Qed.

Lemma get_status_spec_witness :
  (get_status example_app example_world).1
  = Return (VDict (<["status" := VStr "healthy"]>
                    (<["version" := VStr "1.0.0"]>
                      (<["timestamp" := VStr "2024-05-01T09:30:00.000001"]>
                        (<["environment" := VStr "unknown"]> ∅))))).
Proof.
  destruct (get_status_spec example_loads "bad.json" example_world
              (add_log INFO (Initialized (VStr "1.0.0"))
                 (add_log ERROR InvalidJSON example_world))
              example_app eq_refl)
    as (d & Hcfg & _ & Hempty & Hst).
  destruct (Hst example_world) as (st & Hrun & _ & _ & _ & _ & _ & _ & Hrec).
  rewrite Hrun. rewrite Hrec; [reflexivity |].
  apply (Hempty "{version:"); reflexivity.
Defined.

(** *** The processing record *)

(** C6, as the claim has it: the record binds the input under the key
    [original]. It does not: the key is [original_data]. *)
Lemma process_data_no_original_key :
  ¬ ∃ ts : string,
      (process_data example_app example_data example_world).1
      = Return (VDict (<["original" := example_data]>
                        (<["processed_at" := VStr ts]>
                          (<["status" := VStr "processed"]>
                            (<["version" := version example_app]> ∅))))).
Proof.
  intros [ts H].
  apply (f_equal (λ r, match r with
                       | Return (VDict st) => st !! "original"
                       | _ => None
                       end)) in H.
  rewrite lookup_insert_eq in H. discriminate H.
Qed.

(** C6, amended: for every application and input, [process_data] returns a
    dictionary of exactly the four keys [original_data], [processed_at],
    [status] and [version], where [original_data] is the input,
    [processed_at] the clock's reading, [status] the string ["processed"],
    and [version] the application's version. *)
Theorem process_data_spec (self : AzureDevOpsApp) (data : PyVal) (w : World) :
  ∃ st : gmap string PyVal,
    (process_data self data w).1 = Return (VDict st)
    ∧ st = <["original_data" := data]>
             (<["processed_at" := VStr (clock w (ticks w))]>
               (<["status" := VStr "processed"]>
                 (<["version" := version self]> ∅)))
    ∧ dom st = {[ "original_data"; "processed_at"; "status"; "version" ]}
    ∧ st !! "original_data" = Some data
    ∧ st !! "status" = Some (VStr "processed")
    ∧ st !! "version" = Some (version self).
Proof.
  eexists. split; [reflexivity |]. split; [reflexivity |].
  split; [rewrite !dom_insert_L, dom_empty_L; set_solver |].
  split; [by simplify_map_eq |]. split; by simplify_map_eq.
Qed.

End app_props.

(** ** Strings *)

Module StrFacts.

Lemma app_nil_l (t : string) : "" ++ t = t.
Proof. reflexivity. Qed.

Lemma app_cons c (s t : string) : String c s ++ t = String c (s ++ t).
Proof. reflexivity. Qed.

Lemma length_app (s t : string) :
  String.length (s ++ t) = String.length s + String.length t.
Proof.
  induction s as [|c s IH]; [reflexivity |].
  rewrite app_cons. simpl. by rewrite IH.
Qed.

Lemma app_assoc (s t u : string) : (s ++ t) ++ u = s ++ t ++ u.
Proof.
  induction s as [|c s IH]; [reflexivity |].
  rewrite !app_cons. by rewrite IH.
Qed.

(** Two strings that end in tails of the same length have equal heads and
    equal tails. *)
Lemma app_inv_length (s1 s2 t1 t2 : string) :
  String.length t1 = String.length t2 →
  s1 ++ t1 = s2 ++ t2 → s1 = s2 ∧ t1 = t2.
Proof.
  intros Hlen. revert s2.
  induction s1 as [|c s1 IH]; intros [|c' s2] H.
  - done.
  - apply (f_equal String.length) in H.
    rewrite app_nil_l, app_cons in H. simpl in H.
    rewrite length_app in H. lia.
  - apply (f_equal String.length) in H.
    rewrite app_nil_l, app_cons in H. simpl in H.
    rewrite length_app in H. lia.
  - rewrite !app_cons in H. injection H as -> H.
    destruct (IH _ H) as [-> ->]. done.
Qed.

Lemma length_str_lower s : String.length (Py.str_lower s) = String.length s.
Proof. induction s as [|c s IH]; simpl; [reflexivity | by rewrite IH]. Qed.

End StrFacts.

(** ** utils.py, further properties *)

Module utils_more.
Import Py PyFacts utils.

(** X1: for a fixed prefix, [format_message] loses nothing of the message:
    two messages with the same formatted text are the same message. *)
Theorem format_message_inj (prefix : option string) (m1 m2 : string) :
  format_message m1 prefix = format_message m2 prefix → m1 = m2.
Proof.
  unfold format_message. destruct prefix as [p|]; [| done].
  destruct (str_truthy p); [| done].
  intros H. apply (inj (String.app p)) in H.
  by apply (inj (String.app " ")) in H.
Qed.

Lemma format_message_inj_witness : "Hello World" = "Hello World".
Proof.
  apply (format_message_inj (Some "[TEST]") "Hello World" "Hello World").
  reflexivity.
Defined.

(** X2: the formatted text is the message with, for a non-empty prefix, the
    prefix and one space before it: its length is the message's length,
    plus the prefix's length and one when the prefix is not empty. *)
Theorem format_message_length (message : string) (prefix : option string) :
  String.length (format_message message prefix)
  = match prefix with
    | Some (String _ _ as p) => String.length p + 1 + String.length message
    | _ => String.length message
    end.
Proof.
  destruct prefix as [[|c p]|]; try reflexivity.
  unfold format_message, str_truthy.
  rewrite !StrFacts.length_app. simpl. lia.
Qed.

(** X3: [validate_config] looks at the keys only. A dictionary with at least
    the keys of a valid one is valid, and two dictionaries with the same
    keys get the same answer. *)
Theorem validate_config_dom (d1 d2 : gmap string PyVal) :
  (dom d1 ⊆ dom d2 → validate_config d1 = true → validate_config d2 = true)
  ∧ (dom d1 = dom d2 → validate_config d1 = validate_config d2).
Proof.
  assert (Hmono : ∀ a b : gmap string PyVal,
             dom a ⊆ dom b → validate_config a = true → validate_config b = true).
  { intros a b Hsub. rewrite !utils_props.validate_config_iff.
    rewrite <- !elem_of_dom. rewrite elem_of_subseteq in Hsub.
    intros [Hv He]. split; by apply Hsub. }
  split; [apply Hmono |].
  intros Hdom. apply eq_true_iff_eq.
  split; apply Hmono; by rewrite Hdom.
Qed.

Lemma validate_config_dom_witness :
  validate_config
    (<["debug" := VBool true]>
      (<["version" := VInt 2]> {[ "environment" := VNone ]})) = true
  ∧ validate_config {[ "version" := VNone ]}
    = validate_config {[ "version" := VStr "1.0.0" ]}.
Proof.
  split.
  - refine (proj1 (validate_config_dom
      (<["version" := VStr "1.0.0"]> {[ "environment" := VStr "test" ]})
      _) _ _).
    + apply (bool_decide_unpack _). reflexivity.
    + reflexivity.
  - refine (proj2 (validate_config_dom _ _) _).
    by rewrite !dom_singleton_L.
Defined.

(** X4: [safe_get] answers with the default exactly when the key is not
    bound or is bound to the default itself; a caller cannot tell the two
    apart from the answer. *)
Theorem safe_get_default_iff (dictionary : gmap string PyVal) (key : string)
    (dflt : PyVal) :
  safe_get dictionary key dflt = dflt
  ↔ dictionary !! key = None ∨ dictionary !! key = Some dflt.
Proof.
  unfold safe_get, dict_get. destruct (dictionary !! key) as [v|].
  - split; [intros ->; by right | by intros [|[= ->]]].
  - split; [by left | done].
Qed.

Lemma safe_get_default_iff_witness :
  safe_get {[ "key1" := VNone ]} "key1" VNone = VNone
  ∧ safe_get {[ "key1" := VNone ]} "key2" VNone = VNone.
Proof.
  split.
  - apply (proj2 (safe_get_default_iff {[ "key1" := VNone ]} "key1" VNone)).
    right. reflexivity.
  - apply (proj2 (safe_get_default_iff {[ "key1" := VNone ]} "key2" VNone)).
    left. reflexivity.
Defined.

End utils_more.

(** ** config.py, further properties *)

Module config_more.
Import Py PyFacts utils config.

(** X5: a [DEBUG] value that is set and is not four characters long turns
    [debug] off. The empty string does: set to [""] the flag is off, while
    with the variable not set it is on. No blank is stripped. *)
Theorem debug_off_by_length (env : gmap string string) (v : string) :
  env !! "DEBUG" = Some v → String.length v ≠ 4 →
  debug (config.__init__ env) = false.
Proof.
  intros Hv Hlen. simpl. unfold getenv. rewrite Hv.
  apply not_true_is_false. intros Heq. apply String.eqb_eq in Heq.
  apply (f_equal String.length) in Heq.
  rewrite StrFacts.length_str_lower in Heq. simpl in Heq. lia.
Qed.

Lemma debug_off_by_length_witness :
  debug (config.__init__ {[ "DEBUG" := "" ]}) = false
  ∧ debug (config.__init__ {[ "DEBUG" := " true" ]}) = false.
Proof.
  split.
  - apply (debug_off_by_length {[ "DEBUG" := "" ]} ""); [reflexivity |].
    simpl. lia.
  - apply (debug_off_by_length {[ "DEBUG" := " true" ]} " true");
      [reflexivity |].
    simpl. lia.
Defined.

(** X6: [to_dict] loses no attribute: two [Config] objects with the same
    dictionary are the same object. *)
Theorem to_dict_inj (c1 c2 : Config) : to_dict c1 = to_dict c2 → c1 = c2.
Proof.
  intros H.
  destruct (config_props.to_dict_lookups c1) as (Hv1 & He1 & Hd1 & Hp1).
  destruct (config_props.to_dict_lookups c2) as (Hv2 & He2 & Hd2 & Hp2).
  rewrite H in Hv1, He1, Hd1, Hp1.
  destruct c1, c2; simpl in *. congruence.
Qed.

Lemma to_dict_inj_witness :
  config.__init__ ∅ = config.__init__ {[ "DEBUG" := "TRUE" ]}.
Proof.
  apply (to_dict_inj (config.__init__ ∅) (config.__init__ {[ "DEBUG" := "TRUE" ]})).
  reflexivity.
Defined.

(** The end of the display string, after the environment name. *)
Definition debug_tail (b : bool) : string := ", debug=" ++ str_of_bool b ++ ")".

Lemma str_split (self : Config) :
  __str__ self
  = "Config(version=" ++ version self ++ ", env=" ++ environment self
      ++ debug_tail (debug self).
Proof. reflexivity. Qed.

Lemma debug_tail_inv (e1 e2 : string) (b1 b2 : bool) :
  e1 ++ debug_tail b1 = e2 ++ debug_tail b2 → e1 = e2 ∧ b1 = b2.
Proof.
  destruct b1, b2; intros H.
  - by apply StrFacts.app_inv_length in H as [-> _].
  - change (debug_tail false) with ("," ++ " debug=False)") in H.
    rewrite <- StrFacts.app_assoc in H.
    by apply StrFacts.app_inv_length in H as [_ H].
  - change (debug_tail false) with ("," ++ " debug=False)") in H.
    rewrite <- StrFacts.app_assoc in H.
    by apply StrFacts.app_inv_length in H as [_ H].
  - by apply StrFacts.app_inv_length in H as [-> _].
Qed.

(** X7: the display string of a constructed [Config] tells its environment
    name and its debug flag, and nothing of the message prefix: two
    environments give the same string exactly when they give the same
    [environment] and the same [debug]. *)
Theorem str_tells_settings (env1 env2 : gmap string string) :
  __str__ (config.__init__ env1) = __str__ (config.__init__ env2)
  ↔ environment (config.__init__ env1) = environment (config.__init__ env2)
    ∧ debug (config.__init__ env1) = debug (config.__init__ env2).
Proof.
  rewrite !str_split. split.
  - intros H.
    apply (inj (String.app "Config(version=")) in H.
    change (version (config.__init__ env1)) with "1.0.0" in H.
    change (version (config.__init__ env2)) with "1.0.0" in H.
    apply (inj (String.app "1.0.0")) in H.
    apply (inj (String.app ", env=")) in H.
    by apply debug_tail_inv in H.
  - intros [He Hd]. rewrite He, Hd. reflexivity.
Qed.

Lemma str_tells_settings_witness :
  __str__ (config.__init__ {[ "MESSAGE_PREFIX" := ">>" ]})
  = __str__ (config.__init__ {[ "DEBUG" := "True" ]}).
Proof.
  apply (proj2 (str_tells_settings {[ "MESSAGE_PREFIX" := ">>" ]}
                  {[ "DEBUG" := "True" ]})).
  split; reflexivity.
Defined.

End config_more.

(** ** app.py, further properties *)

Module app_more.
Import Py PyFacts app.

(** The constructor, case by case on what the loader does. *)
Lemma init_cases jl path w :
  app.__init__ jl path w
  = match _load_config jl path w with
    | (Return (VDict d), w1) =>
        (Return {| config := VDict d;
                   version := dict_get d "version" (VStr "1.0.0") |},
         add_log INFO (Initialized (dict_get d "version" (VStr "1.0.0"))) w1)
    | (Return _, w1) => (Raise AttributeError, w1)
    | (Raise e, w1) => (Raise e, w1)
    end.
Proof.
  unfold app.__init__, bind.
  destruct (_load_config jl path w) as [[v|e] w1]; [| reflexivity].
  destruct v; reflexivity.
Qed.

(** X8: the loader never changes the file system, the clock or its
    position. When it raises it has logged nothing: the world is as it was.
    When it returns it has logged exactly one record: [INFO] with the
    decoder's value, [WARNING] with the default record, or [ERROR] with the
    empty dictionary. *)
Theorem load_config_effects (jl : string → outcome PyVal) (path : string)
    (w : World) :
  fs (_load_config jl path w).2 = fs w
  ∧ clock (_load_config jl path w).2 = clock w
  ∧ ticks (_load_config jl path w).2 = ticks w
  ∧ (∀ e, (_load_config jl path w).1 = Raise e → (_load_config jl path w).2 = w)
  ∧ (∀ v, (_load_config jl path w).1 = Return v →
       ∃ (lvl : level) (msg : log_msg),
         log (_load_config jl path w).2 = (log w ++ [(lvl, msg)])%list
         ∧ ((lvl = INFO ∧ msg = ConfigLoaded
             ∧ ∃ content, fs w !! path = Some (File true content)
                          ∧ jl content = Return v)
            ∨ (lvl = WARNING ∧ msg = ConfigNotFound path
               ∧ v = VDict default_config)
            ∨ (lvl = ERROR ∧ msg = InvalidJSON ∧ v = VDict ∅))).
Proof.
  rewrite app_props.load_config_by_open.
  destruct (open_read path w).1 as [content|e0] eqn:Hopen.
  - apply app_props.open_read_file in Hopen.
    destruct (jl content) as [v'|e'] eqn:Hjl.
    + repeat (split; [done |]). intros v [= <-].
      exists INFO, ConfigLoaded. split; [done |]. left. eauto.
    + destruct e'; simpl; repeat (split; [done |]);
        first [ by intros v [=] | intros v [= <-]; eauto 10 ].
  - destruct e0; simpl; repeat (split; [done |]);
      first [ by intros v [=] | intros v [= <-]; eauto 10 ].
Qed.

Lemma load_config_effects_witness :
  (_load_config app_props.example_loads "src" app_props.example_world).2
  = app_props.example_world
  ∧ ∃ (lvl : level) (msg : log_msg),
      log (_load_config app_props.example_loads "bad.json"
             app_props.example_world).2
      = [(lvl, msg)].
Proof.
  split.
  - destruct (load_config_effects app_props.example_loads "src"
                app_props.example_world) as (_ & _ & _ & H & _).
    apply (H IsADirectoryError). reflexivity.
  - destruct (load_config_effects app_props.example_loads "bad.json"
                app_props.example_world) as (_ & _ & _ & _ & H).
    destruct (H (VDict ∅) eq_refl) as (lvl & msg & Hlog & _).
    exists lvl, msg. exact Hlog.
Defined.

(** X9: a readable file whose text the decoder accepts is returned as the
    decoder gives it, whatever it holds, and one [INFO] record is logged. *)
Theorem load_config_verbatim (jl : string → outcome PyVal) (path : string)
    (w : World) (content : string) (v : PyVal) :
  fs w !! path = Some (File true content) →
  jl content = Return v →
  _load_config jl path w = (Return v, add_log INFO ConfigLoaded w).
Proof.
  intros Hfs Hjl. by rewrite app_props.load_config_cases, Hfs, Hjl.
Qed.

Lemma load_config_verbatim_witness :
  _load_config app_props.example_loads "v2.json" app_props.example_world
  = (Return (VDict {[ "version" := VStr "2.0.0" ]}),
     add_log INFO ConfigLoaded app_props.example_world).
Proof.
  apply (load_config_verbatim app_props.example_loads "v2.json"
           app_props.example_world app_props.v2_text); reflexivity.
Defined.

(** X10: a file that holds valid JSON which is not an object makes the
    constructor raise [AttributeError]: the loader returns the value, and
    the value has no [get]. The loader's [INFO] record has been logged by
    then. *)
Theorem init_not_an_object (jl : string → outcome PyVal) (path : string)
    (w : World) (content : string) (v : PyVal) :
  fs w !! path = Some (File true content) →
  jl content = Return v →
  (∀ d, v ≠ VDict d) →
  app.__init__ jl path w = (Raise AttributeError, add_log INFO ConfigLoaded w).
Proof.
  intros Hfs Hjl Hnd.
  rewrite init_cases, app_props.load_config_cases, Hfs, Hjl.
  destruct v; try reflexivity. by destruct (Hnd d).
Qed.

Definition list_world : World :=
  {| fs := {[ "list.json" := File true "[1, 2]" ]};
     clock := app_props.example_clock; ticks := 0; log := [] |}.

Definition list_loads : string → outcome PyVal :=
  table_loads [("[1, 2]", VList [VInt 1; VInt 2])].

Lemma init_not_an_object_witness :
  app.__init__ list_loads "list.json" list_world
  = (Raise AttributeError, add_log INFO ConfigLoaded list_world).
Proof.
  apply (init_not_an_object list_loads "list.json" list_world "[1, 2]"
           (VList [VInt 1; VInt 2])); [reflexivity | reflexivity | discriminate].
Defined.

(** X11: the constructor returns an application exactly when the loader
    returns a dictionary; an exception of the loader leaves the constructor
    as it is. *)
Theorem init_returns_iff (jl : string → outcome PyVal) (path : string)
    (w : World) :
  ((∃ self, (app.__init__ jl path w).1 = Return self)
   ↔ ∃ d, (_load_config jl path w).1 = Return (VDict d))
  ∧ (∀ e, (_load_config jl path w).1 = Raise e →
       (app.__init__ jl path w).1 = Raise e).
Proof.
  rewrite init_cases.
  destruct (_load_config jl path w) as [[v|e] w1]; simpl.
  - split; [| discriminate]. destruct v; simpl;
      (split; [intros [self [=]] | intros [d' [=]]]); eauto.
  - split; [| by intros e' [= <-]].
    split; [intros [self [=]] | intros [d [=]]].
Qed.

Lemma init_returns_iff_witness :
  (∃ self, (app.__init__ app_props.example_loads "bad.json"
              app_props.example_world).1 = Return self)
  ∧ (app.__init__ app_props.example_loads "src" app_props.example_world).1
    = Raise IsADirectoryError.
Proof.
  split.
  - apply (proj1 (init_returns_iff app_props.example_loads "bad.json"
                    app_props.example_world)).
    exists ∅. reflexivity.
  - apply (proj2 (init_returns_iff app_props.example_loads "src"
                    app_props.example_world)).
    reflexivity.
Defined.

(** X12: when the file does not exist, that is when [open] raises
    [FileNotFoundError], the constructor returns an application of version
    ["1.0.0"] that holds the default record, after one [WARNING] and one
    [INFO] record; its status then names the environment ["development"]. *)
Theorem init_missing_file (jl : string → outcome PyVal) (path : string)
    (w : World) :
  (open_read path w).1 = Raise FileNotFoundError →
  app.__init__ jl path w
  = (Return {| config := VDict default_config; version := VStr "1.0.0" |},
     add_log INFO (Initialized (VStr "1.0.0"))
       (add_log WARNING (ConfigNotFound path) w))
  ∧ ∀ w2 : World,
      (get_status {| config := VDict default_config; version := VStr "1.0.0" |}
         w2).1
      = Return (VDict (<["status" := VStr "healthy"]>
                        (<["version" := VStr "1.0.0"]>
                          (<["timestamp" := VStr (clock w2 (ticks w2))]>
                            (<["environment" := VStr "development"]> ∅))))).
Proof.
  intros Hopen. split.
  - rewrite init_cases, app_props.load_config_by_open, Hopen. reflexivity.
  - intros w2. by rewrite (app_props.get_status_dict _ default_config).
Qed.

Lemma init_missing_file_witness :
  (app.__init__ app_props.example_loads "nowhere.json"
     app_props.example_world).1
  = Return {| config := VDict default_config; version := VStr "1.0.0" |}.
Proof.
  destruct (init_missing_file app_props.example_loads "nowhere.json"
              app_props.example_world eq_refl) as [H _].
  by rewrite H.
Defined.

(** A path under a regular file names nothing, and the constructor raises
    what [open] raises there. *)
Example init_under_file :
  (app.__init__ app_props.example_loads "bad.json/x"
     app_props.example_world).1
  = Raise NotADirectoryError.
Proof. reflexivity. Qed.

(** X13: on an application that holds a dictionary, [get_status] moves the
    clock by one reading and changes nothing else, so it logs nothing;
    [process_data], on any application, moves the clock by one reading and
    logs one [INFO] record. Neither touches the file system. *)
Theorem status_and_process_effects (self : AzureDevOpsApp) (data : PyVal)
    (w : World) :
  (process_data self data w).2
  = {| fs := fs w; clock := clock w; ticks := S (ticks w);
       log := (log w ++ [(INFO, ProcessingData)])%list |}
  ∧ ((∃ d, config self = VDict d) →
       (get_status self w).2
       = {| fs := fs w; clock := clock w; ticks := S (ticks w);
            log := log w |}).
Proof.
  split; [reflexivity |].
  intros [d Hd]. unfold get_status, bind, now_isoformat. simpl.
  rewrite Hd. reflexivity.
Qed.

Lemma status_and_process_effects_witness :
  log (get_status app_props.example_app app_props.example_world).2 = [].
Proof.
  destruct (status_and_process_effects app_props.example_app VNone
              app_props.example_world) as [_ H].
  rewrite H; [reflexivity |]. exists ∅. reflexivity.
Defined.

End app_more.

(** ** app.py: run and main *)

Module app_run_props.
Import Py PyFacts app proc app_run.

Lemma printed_app (tr1 tr2 : list event) :
  printed (tr1 ++ tr2)%list = (printed tr1 ++ printed tr2)%list.
Proof.
  induction tr1 as [|[text|lvl msg] tr1 IH]; simpl; [done | | done].
  by rewrite IH.
Qed.

(** The sample record that [run] processes, stamped [timestamp]. *)
Definition sample_data (timestamp : string) : PyVal :=
  VDict (<["user_id" := VInt 12345]>
          (<["action" := VStr "login"]>
            (<["timestamp" := VStr timestamp]> ∅))).

(** [run], evaluated on an application that holds a dictionary. *)
Lemma run_eval (json_dumps : PyVal → string) (self : AzureDevOpsApp)
    (d : gmap string PyVal) (p : Process) :
  config self = VDict d →
  run json_dumps self p
  = (Return tt,
     {| world :=
          {| fs := fs (world p); clock := clock (world p);
             ticks := S (S (S (ticks (world p))));
             log := (log (world p) ++ [(INFO, ProcessingData)])%list |};
        environ := environ p;
        trace :=
          (trace p ++
           [ Logged INFO Starting;
             Printed (json_dumps
               (VDict (<["original_data" :=
                           sample_data (clock (world p) (ticks (world p)))]>
                        (<["processed_at" :=
                             VStr (clock (world p) (S (ticks (world p))))]>
                          (<["status" := VStr "processed"]>
                            (<["version" := version self]> ∅))))));
             Printed (nl ++ "Application Status: " ++ json_dumps
               (VDict (<["status" := VStr "healthy"]>
                        (<["version" := version self]>
                          (<["timestamp" :=
                               VStr (clock (world p) (S (S (ticks (world p)))))]>
                            (<["environment" :=
                                 dict_get d "environment" (VStr "unknown")]>
                              ∅)))))) ])%list |}).
Proof.
  intros Hd.
  unfold run, pbind, lift, emit, print, process_data, get_status, bind,
    logger, now_isoformat, add_log, emit. simpl.
  rewrite Hd. simpl. rewrite <- !app_assoc. reflexivity.
Qed.

(** X14: on an application that holds a dictionary, [run] does not raise.
    It reads the clock three times, for the sample's timestamp, for
    [processed_at] and for the status, in this order; it prints two texts,
    the processing record and then the status after the words
    [Application Status:]; it logs [Starting] first and the record of
    [process_data] on the way. *)
Theorem run_spec (json_dumps : PyVal → string) (self : AzureDevOpsApp)
    (d : gmap string PyVal) (p : Process) :
  config self = VDict d →
  run json_dumps self p
  = (Return tt,
     {| world :=
          {| fs := fs (world p); clock := clock (world p);
             ticks := S (S (S (ticks (world p))));
             log := (log (world p) ++ [(INFO, ProcessingData)])%list |};
        environ := environ p;
        trace :=
          (trace p ++
           [ Logged INFO Starting;
             Printed (json_dumps
               (VDict (<["original_data" :=
                           sample_data (clock (world p) (ticks (world p)))]>
                        (<["processed_at" :=
                             VStr (clock (world p) (S (ticks (world p))))]>
                          (<["status" := VStr "processed"]>
                            (<["version" := version self]> ∅))))));
             Printed (nl ++ "Application Status: " ++ json_dumps
               (VDict (<["status" := VStr "healthy"]>
                        (<["version" := version self]>
                          (<["timestamp" :=
                               VStr (clock (world p) (S (S (ticks (world p)))))]>
                            (<["environment" :=
                                 dict_get d "environment" (VStr "unknown")]>
                              ∅)))))) ])%list |}).
Proof. apply run_eval. Qed.

(** An encoder for the examples: a dictionary is rendered by its keys. *)
Definition example_dumps (v : PyVal) : string :=
  match v with
  | VDict d => "{" ++ String.concat "," (map_to_list d).*1 ++ "}"
  | _ => "..."
  end.

Definition example_process : Process :=
  {| world := app_props.example_world; environ := ∅; trace := [] |}.

Lemma run_spec_witness :
  (run example_dumps app_props.example_app example_process).1 = Return tt
  ∧ ticks (world (run example_dumps app_props.example_app example_process).2)
    = 3.
Proof.
  rewrite (run_spec example_dumps app_props.example_app ∅ example_process
             eq_refl).
  split; reflexivity.
Defined.

(** [main], case by case on what the constructor and [run] do. *)
Lemma main_cases jl jd p :
  main jl jd p
  = match app.__init__ jl default_config_path (world p) with
    | (Return self, w1) =>
        match run jd self
                {| world := w1; environ := environ p; trace := trace p |} with
        | (Return _, p') => (Return 0%Z, p')
        | (Raise e, p') =>
            (Return 1%Z,
             {| world := world p'; environ := environ p';
                trace := (trace p' ++ [Logged ERROR (ApplicationError e)])%list |})
        end
    | (Raise e, w1) =>
        (Return 1%Z,
         {| world := w1; environ := environ p;
            trace := (trace p ++ [Logged ERROR (ApplicationError e)])%list |})
    end.
Proof.
  unfold main, try_except_Exception, pbind, lift, emit, pret.
  destruct (app.__init__ jl default_config_path (world p)) as [[self|e] w1];
    [| reflexivity].
  destruct (run jd self _) as [[[]|e] p']; reflexivity.
Qed.

(** X15: [main] never raises: it returns [0] or [1]. It returns [0] exactly
    when the loader, on [src/config.json], returns a dictionary; it has then
    printed two texts. Otherwise it returns [1], having printed nothing and
    logged one [ERROR] record with the exception of the constructor. *)
Theorem main_exit_code (jl : string → outcome PyVal) (jd : PyVal → string)
    (p : Process) :
  ((main jl jd p).1 = Return 0%Z
   ∧ (∃ d, (_load_config jl default_config_path (world p)).1
           = Return (VDict d))
   ∧ ∃ t1 t2, printed (trace (main jl jd p).2)
              = (printed (trace p) ++ [t1; t2])%list)
  ∨ ((main jl jd p).1 = Return 1%Z
     ∧ (¬ ∃ d, (_load_config jl default_config_path (world p)).1
               = Return (VDict d))
     ∧ printed (trace (main jl jd p).2) = printed (trace p)
     ∧ ∃ e, (app.__init__ jl default_config_path (world p)).1 = Raise e
            ∧ trace (main jl jd p).2
              = (trace p ++ [Logged ERROR (ApplicationError e)])%list).
Proof.
  rewrite main_cases, app_more.init_cases.
  destruct (_load_config jl default_config_path (world p)) as [[v|e] w1]
    eqn:Hload.
  - destruct v;
      try (right; simpl; split; [done |]; split; [by intros [d' [=]] |];
           split; [rewrite printed_app; simpl; by rewrite app_nil_r |];
           by exists AttributeError).
    left. rewrite (run_eval jd _ d); [| reflexivity].
    split; [done |]. split; [by exists d |].
    eexists _, _. cbn [snd trace]. rewrite printed_app. reflexivity.
  - right. simpl. split; [done |]. split; [by intros [d' [=]] |].
    split; [rewrite printed_app; simpl; by rewrite app_nil_r |].
    by exists e.
Qed.

(** X16: the exit code by what [src/config.json] is. A file that does not
    exist ([open] raises [FileNotFoundError]) and a file of text that is not
    JSON are no errors: [main] returns [0]. A directory, an unreadable file,
    a file of JSON that is not an object, and every other failure of [open],
    as for a path under a regular file, make it return [1]. *)
Theorem main_by_file (jl : string → outcome PyVal) (jd : PyVal → string)
    (p : Process) :
  ((open_read default_config_path (world p)).1 = Raise FileNotFoundError →
     (main jl jd p).1 = Return 0%Z)
  ∧ (∀ content, fs (world p) !! default_config_path = Some (File true content) →
       jl content = Raise JSONDecodeError → (main jl jd p).1 = Return 0%Z)
  ∧ (fs (world p) !! default_config_path = Some Dir →
       (main jl jd p).1 = Return 1%Z)
  ∧ (∀ content, fs (world p) !! default_config_path = Some (File false content) →
       (main jl jd p).1 = Return 1%Z)
  ∧ (∀ content v,
       fs (world p) !! default_config_path = Some (File true content) →
       jl content = Return v → (∀ d, v ≠ VDict d) →
       (main jl jd p).1 = Return 1%Z)
  ∧ (∀ e, (open_read default_config_path (world p)).1 = Raise e →
       e ≠ FileNotFoundError → e ≠ JSONDecodeError →
       (main jl jd p).1 = Return 1%Z).
Proof.
  rewrite main_cases, app_more.init_cases, app_props.load_config_by_open,
    app_props.open_read_cases.
  split; [| split; [| split; [| split; [| split]]]].
  - intros ->. cbn [app_props.on_raise].
    by rewrite (run_eval jd _ default_config).
  - intros content -> ->. cbn [app_props.on_raise].
    by rewrite (run_eval jd _ ∅).
  - by intros ->.
  - by intros content ->.
  - intros content v -> -> Hnd. destruct v; try done. by destruct (Hnd d).
  - intros e -> Hf Hj. by destruct e.
Qed.

Definition process_of (files : gmap string node) : Process :=
  {| world := {| fs := files; clock := app_props.example_clock;
                 ticks := 0; log := [] |};
     environ := ∅; trace := [] |}.

Lemma main_by_file_witness :
  (main app_more.list_loads example_dumps (process_of ∅)).1 = Return 0%Z
  ∧ (main app_more.list_loads example_dumps
       (process_of {[ "src/config.json" := File true "{version:" ]})).1
    = Return 0%Z
  ∧ (main app_more.list_loads example_dumps
       (process_of {[ "src/config.json" := Dir ]})).1 = Return 1%Z
  ∧ (main app_more.list_loads example_dumps
       (process_of {[ "src/config.json" := File false "{}" ]})).1 = Return 1%Z
  ∧ (main app_more.list_loads example_dumps
       (process_of {[ "src/config.json" := File true "[1, 2]" ]})).1
    = Return 1%Z
  ∧ (main app_more.list_loads example_dumps
       (process_of {[ "src" := File true "text" ]})).1 = Return 1%Z.
Proof.
  split; [| split; [| split; [| split; [| split]]]].
  - apply (main_by_file app_more.list_loads example_dumps (process_of ∅)).
    reflexivity.
  - apply (proj1 (proj2 (main_by_file app_more.list_loads example_dumps
        (process_of {[ "src/config.json" := File true "{version:" ]})))
        "{version:"); reflexivity.
  - apply (main_by_file app_more.list_loads example_dumps
        (process_of {[ "src/config.json" := Dir ]})).
    reflexivity.
  - apply (proj1 (proj2 (proj2 (proj2 (main_by_file app_more.list_loads
        example_dumps
        (process_of {[ "src/config.json" := File false "{}" ]})))))
        "{}"); reflexivity.
  - apply (proj1 (proj2 (proj2 (proj2 (proj2 (main_by_file
        app_more.list_loads example_dumps
        (process_of {[ "src/config.json" := File true "[1, 2]" ]}))))))
        "[1, 2]" (VList [VInt 1; VInt 2])); [reflexivity | reflexivity |].
    discriminate.
  - apply (proj2 (proj2 (proj2 (proj2 (proj2 (main_by_file
        app_more.list_loads example_dumps
        (process_of {[ "src" := File true "text" ]}))))))
        NotADirectoryError); [reflexivity | discriminate | discriminate].
Defined.

End app_run_props.

(** ** main.py *)

Module main_py_props.
Import Py PyFacts app proc main_py.

Lemma printed_Printed (texts : list string) :
  printed (Printed <$> texts) = texts.
Proof.
  induction texts as [|t texts IH]; [done |].
  rewrite fmap_cons. simpl. by rewrite IH.
Qed.

Definition debug_lines : list string :=
  [nl ++ "Debug info:"; "- Config loaded: ✓"; "- Utils imported: ✓";
   "- Application running: ✓"].

(** [main], evaluated: what it returns and the process it leaves. *)
Lemma main_eval (p : Process) :
  main p
  = (Return 0%Z,
     {| world := {| fs := fs (world p); clock := clock (world p);
                    ticks := S (ticks (world p)); log := log (world p) |};
        environ := environ p;
        trace :=
          (trace p ++
           (Printed <$>
             [ "=== Simple Project Demo ===";
                ("Version: "
                   ++ config.version (config.__init__ (environ p)))%string;
                ("Environment: "
                   ++ config.environment (config.__init__ (environ p)))%string;
                ("Started at: " ++ clock (world p) (ticks (world p)))%string;
                (nl ++ utils.format_message message
                         (Some (config.message_prefix
                                  (config.__init__ (environ p)))))%string ])
           ++ (Printed <$>
                 (if config.debug (config.__init__ (environ p))
                  then debug_lines else [])))%list |}).
Proof.
  unfold main, debug_info, pbind, lift, print, emit, pret, get_timestamp,
    now_isoformat.
  destruct (config.debug (config.__init__ (environ p)));
    cbn -[config.__init__ String.append]; rewrite <- !app_assoc; reflexivity.
Qed.

(** Whether every character of the string has a code below 128. *)
Fixpoint is_ascii (s : string) : bool :=
  match s with
  | EmptyString => true
  | String c rest => (nat_of_ascii c <? 128)%nat && is_ascii rest
  end.

(** X17: what [main] of [main.py] hands to [print], when the environment
    name, the message prefix and the clock's reading are ASCII texts, which
    every standard output encodes. The first five texts are the banner, the
    version ["1.0.0"], the environment name, the clock's reading and the
    formatted message. When [DEBUG], or ["true"] when it is not set, is not
    ["true"] without regard to case, they are all there is, and [main]
    returns [0] after one reading of the clock. When it is, the next two
    texts are the header of the debug block and its first line, the first
    text that is not ASCII; nothing is said of what follows it. *)
Theorem main_prints (p : Process) :
  is_ascii (default "development" (environ p !! "ENVIRONMENT")) = true →
  is_ascii (default "[DEMO]" (environ p !! "MESSAGE_PREFIX")) = true →
  is_ascii (clock (world p) (ticks (world p))) = true →
  (config.caseless_eqb (default "true" (environ p !! "DEBUG")) "true" = false →
     (main p).1 = Return 0%Z
     ∧ world (main p).2
       = {| fs := fs (world p); clock := clock (world p);
            ticks := S (ticks (world p)); log := log (world p) |}
     ∧ printed (trace (main p).2)
       = (printed (trace p)
          ++ [ "=== Simple Project Demo ===";
               "Version: 1.0.0";
               ("Environment: "
                  ++ default "development" (environ p !! "ENVIRONMENT"))%string;
               ("Started at: " ++ clock (world p) (ticks (world p)))%string;
               (nl ++ utils.format_message message
                        (Some (default "[DEMO]"
                                 (environ p !! "MESSAGE_PREFIX"))))%string ])%list)
  ∧ (config.caseless_eqb (default "true" (environ p !! "DEBUG")) "true" = true →
     take 7 (drop (length (printed (trace p))) (printed (trace (main p).2)))
     = [ "=== Simple Project Demo ===";
         "Version: 1.0.0";
         ("Environment: "
            ++ default "development" (environ p !! "ENVIRONMENT"))%string;
         ("Started at: " ++ clock (world p) (ticks (world p)))%string;
         (nl ++ utils.format_message message
                  (Some (default "[DEMO]"
                           (environ p !! "MESSAGE_PREFIX"))))%string;
         (nl ++ "Debug info:")%string;
         "- Config loaded: ✓" ]).
Proof.
  intros _ _ _. rewrite main_eval. cbn [fst snd trace world].
  rewrite !app_run_props.printed_app, !printed_Printed.
  rewrite config_props.debug_caseless_eqb.
  cbn [config.__init__ config.version config.environment config.message_prefix].
  rewrite !config_props.getenv_default.
  split; intros ->.
  - split; [done |]. split; [done |]. by rewrite app_nil_r.
  - by rewrite drop_app_length.
Qed.

Definition process_in (env : gmap string string) : Process :=
  {| world := app_props.example_world; environ := env; trace := [] |}.

Lemma main_prints_witness :
  (main (process_in {[ "DEBUG" := "false" ]})).1 = Return 0%Z
  ∧ length (printed (trace (main (process_in {[ "DEBUG" := "false" ]})).2)) = 5
  ∧ printed (trace (main (process_in ∅)).2) !! 6 = Some "- Config loaded: ✓".
Proof.
  split; [| split].
  - apply (main_prints (process_in {[ "DEBUG" := "false" ]}));
      reflexivity.
  - destruct (main_prints (process_in {[ "DEBUG" := "false" ]}))
      as [Hoff _]; [reflexivity | reflexivity | reflexivity |].
    destruct Hoff as (_ & _ & Hprinted); [reflexivity |].
    rewrite Hprinted. reflexivity.
  - destruct (main_prints (process_in ∅)) as [_ Hon];
      [reflexivity | reflexivity | reflexivity |].
    assert (Hdebug : config.caseless_eqb
                       (default "true" (environ (process_in ∅) !! "DEBUG"))
                       "true" = true) by reflexivity.
    specialize (Hon Hdebug).
    apply (f_equal (λ texts : list string, texts !! 6)) in Hon.
    rewrite lookup_take_lt in Hon by lia.
    exact Hon.
Defined.



End main_py_props.
